(** * Clipboard commands of the editor: vs/editor/contrib/clipboard/clipboard.ts

    A shallow embedding of the module: the capability flags computed when the
    module is loaded, the registration of the cut, copy and paste commands and
    of the copy-with-syntax-highlighting action, and the two implementations
    that [registerExecCommandImpl] installs on every registered command. *)

From Stdlib Require Import ZArith.
From stdpp Require Import base option list sets strings.

Set Default Proof Using "Type".

(** ** Host interfaces *)

(** The literal type ['cut' | 'copy' | 'paste']. *)
Inductive BrowserCommand : Type := cut | copy | paste.

#[global] Instance BrowserCommand_eq_dec : EqDecision BrowserCommand.
Proof. solve_decision. Defined.

(** [EditorOption], restricted to the member this module reads. *)
Inductive EditorOption : Type := emptySelectionClipboard.

(** The methods of [ICodeEditor] and of its selection that the module calls.
    [editor.focus()] is an effect and is an [Event] below. *)
Class ICodeEditor (E S : Type) : Type := {
  hasModel : E → bool;
  hasTextFocus : E → bool;
  getOption : E → EditorOption → bool;
  getSelection : E → option S;
  isEmpty : S → bool
}.

(** [accessor.get(ICodeEditorService)], as far as the module uses it. *)
Record ServicesAccessor (E : Type) : Type := {
  getFocusedCodeEditor : option E
}.
Arguments getFocusedCodeEditor {E} _.

(** What the module reads of [platform], [browser] and [document] while it
    is loaded. *)
Record Host : Type := {
  isNative : bool;
  isEdge : bool;
  isChrome : bool;
  queryCommandSupported : BrowserCommand → bool
}.

(** ** Effects at run time *)

Inductive Event (E : Type) : Type :=
| ExecCommand (browserCommand : BrowserCommand)
| EditorFocus (editor : E)
| SetForceCopyWithSyntaxHighlighting (value : bool).
Arguments ExecCommand {E} _.
Arguments EditorFocus {E} _.
Arguments SetForceCopyWithSyntaxHighlighting {E} _.

(** [CopyOptions.forceCopyWithSyntaxHighlighting] and the calls made so far,
    oldest first. *)
Record World (E : Type) : Type := {
  forceCopyWithSyntaxHighlighting : bool;
  events : list (Event E)
}.
Arguments forceCopyWithSyntaxHighlighting {E} _.
Arguments events {E} _.

(** A [TypeError] of the language, or an exception raised by a host call. *)
Inductive JsError : Type := TypeError | HostError (name : string).

Inductive Completion (A : Type) : Type :=
| Normal (value : A)
| Throw (error : JsError).
Arguments Normal {A} _.
Arguments Throw {A} _.

Definition Js (E A : Type) : Type := World E → Completion A * World E.

#[global] Instance Js_ret {E} : MRet (Js E) := λ A a w, (Normal a, w).

#[global] Instance Js_bind {E} : MBind (Js E) := λ A B k m w,
  match m w with
  | (Normal a, w') => k a w'
  | (Throw e, w') => (Throw e, w')
  end.

Definition throw {E A} (e : JsError) : Js E A := λ w, (Throw e, w).

Definition emit {E} (ev : Event E) : Js E unit := λ w,
  (Normal (), {| forceCopyWithSyntaxHighlighting := forceCopyWithSyntaxHighlighting w;
                 events := events w ++ [ev] |}).

Definition document_execCommand {E} (browserCommand : BrowserCommand) : Js E unit :=
  emit (ExecCommand browserCommand).

Definition editor_focus {E} (editor : E) : Js E unit :=
  emit (EditorFocus editor).

Definition set_forceCopyWithSyntaxHighlighting {E} (value : bool) : Js E unit := λ w,
  (Normal (), {| forceCopyWithSyntaxHighlighting := value;
                 events := events w ++ [SetForceCopyWithSyntaxHighlighting value] |}).

(** ** The copy-with-syntax-highlighting action and the implementations *)

Section Runtime.
Context {E S : Type} `{!ICodeEditor E S}.

(** [ExecCommandCopyWithSyntaxHighlightingAction.run]. After [hasModel()]
    the selection is read without a null check, as in the source. *)
Definition run (accessor : ServicesAccessor E) (editor : E) : Js E unit :=
  if negb (hasModel editor) then mret ()
  else
    let emptySelectionClipboard := getOption editor emptySelectionClipboard in
    skip ← (if negb emptySelectionClipboard
            then match getSelection editor with
                 | Some selection => mret (isEmpty selection)
                 | None => throw TypeError
                 end
            else mret false);
    if (skip : bool) then mret ()
    else
      set_forceCopyWithSyntaxHighlighting true ;;
      editor_focus editor ;;
      document_execCommand copy ;;
      set_forceCopyWithSyntaxHighlighting false.

Definition CommandImplementation : Type := ServicesAccessor E → Js E bool.

(** The implementation added with priority 10000. *)
Definition focusedEditorImpl (browserCommand : BrowserCommand) : CommandImplementation :=
  λ accessor,
    match getFocusedCodeEditor accessor with
    | Some focusedEditor =>
        if hasTextFocus focusedEditor then
          handled ← (if bool_decide (browserCommand = cut)
                        || bool_decide (browserCommand = copy)
                     then
                       let emptySelectionClipboard :=
                         getOption focusedEditor emptySelectionClipboard in
                       let selection := getSelection focusedEditor in
                       mret (match selection with
                             | Some sel => isEmpty sel && negb emptySelectionClipboard
                             | None => false
                             end)
                     else mret false);
          if (handled : bool) then mret true
          else document_execCommand browserCommand ;; mret true
        else mret false
    | None => mret false
    end.

(** The implementation added with priority 0. *)
Definition defaultImpl (browserCommand : BrowserCommand) : CommandImplementation :=
  λ accessor, document_execCommand browserCommand ;; mret true.

End Runtime.

(** ** Registration metadata *)

(** The members of [EditorContextKeys] the module names. *)
Inductive ContextKeyExpr : Type := textInputFocus | writable.

Inductive MenuId : Type := MenubarEditMenu | EditorContext | CommandPalette.

#[global] Instance MenuId_eq_dec : EqDecision MenuId.
Proof. solve_decision. Defined.

Record IKeybinding : Type := {
  primary : Z;
  secondary : option (list Z)
}.

(** [kbOpts]: the top-level [primary] is [binding]; [win] and [linux] are the
    per-platform overrides, absent when the source does not write them. *)
Record KbOpts : Type := {
  kbExpr : ContextKeyExpr;
  binding : IKeybinding;
  win : option IKeybinding;
  linux : option IKeybinding;
  weight : Z
}.

Record MenuOpts : Type := {
  menuId : MenuId;
  group : string;
  title : string;
  when : option ContextKeyExpr;
  order : Z
}.

Record ICommandOptions : Type := {
  id : string;
  precondition : option ContextKeyExpr;
  kbOpts : option KbOpts;
  menuOpts : option (list MenuOpts)
}.

Record IActionOptions : Type := {
  commandOptions : ICommandOptions;
  label : string;
  alias : string
}.

(** The constants and the localisation function the module imports from
    [vs/base/common/keyCodes], [vs/platform/keybinding] and [vs/nls]; their
    values are not part of this module. *)
Record Imports : Type := {
  KeyMod_CtrlCmd : Z;
  KeyMod_Shift : Z;
  KeyCode_KEY_X : Z;
  KeyCode_KEY_C : Z;
  KeyCode_KEY_V : Z;
  KeyCode_Delete : Z;
  KeyCode_Insert : Z;
  KeybindingWeight_EditorContrib : Z;
  nls_localize : string → string → string
}.

Definition CLIPBOARD_CONTEXT_MENU_GROUP : string := "9_cutcopypaste".

(** ** Capability flags *)

Definition supportsCut (h : Host) : bool :=
  isNative h || queryCommandSupported h cut.

Definition supportsCopy (h : Host) : bool :=
  isNative h || queryCommandSupported h copy.

Definition supportsCopyWithSyntaxHighlighting (h : Host) : bool :=
  supportsCopy h && negb (isEdge h).

Definition supportsPaste (h : Host) : bool :=
  isNative h || (negb (isChrome h) && queryCommandSupported h paste).

Definition supports (h : Host) (browserCommand : BrowserCommand) : bool :=
  match browserCommand with
  | cut => supportsCut h
  | copy => supportsCopy h
  | paste => supportsPaste h
  end.

(** ** The commands *)

(** JavaScript's [a | b]: both operands are taken as signed 32-bit integers. *)
Definition int32 (z : Z) : Z := ((z + 2 ^ 31) `mod` 2 ^ 32 - 2 ^ 31)%Z.

Definition bitor (a b : Z) : Z := Z.lor (int32 a) (int32 b).

Section Commands.
Context (im : Imports).

Definition cutKbOpts : KbOpts := {|
  kbExpr := textInputFocus;
  binding := {| primary := bitor (KeyMod_CtrlCmd im) (KeyCode_KEY_X im);
                secondary := None |};
  win := Some {| primary := bitor (KeyMod_CtrlCmd im) (KeyCode_KEY_X im);
                 secondary := Some [bitor (KeyMod_Shift im) (KeyCode_Delete im)] |};
  linux := None;
  weight := KeybindingWeight_EditorContrib im
|}.

Definition cutOptions (h : Host) : ICommandOptions := {|
  id := "editor.action.clipboardCutAction";
  precondition := None;
  kbOpts := if isNative h then Some cutKbOpts else None;
  menuOpts := Some [
    {| menuId := MenubarEditMenu;
       group := "2_ccp";
       title := nls_localize im "miCut" "Cu&&t";
       when := None;
       order := 1 |};
    {| menuId := EditorContext;
       group := CLIPBOARD_CONTEXT_MENU_GROUP;
       title := nls_localize im "actions.clipboard.cutLabel" "Cut";
       when := Some writable;
       order := 1 |};
    {| menuId := CommandPalette;
       group := "";
       title := nls_localize im "actions.clipboard.cutLabel" "Cut";
       when := None;
       order := 1 |}
  ]
|}.

Definition copyKbOpts : KbOpts := {|
  kbExpr := textInputFocus;
  binding := {| primary := bitor (KeyMod_CtrlCmd im) (KeyCode_KEY_C im);
                secondary := None |};
  win := Some {| primary := bitor (KeyMod_CtrlCmd im) (KeyCode_KEY_C im);
                 secondary := Some [bitor (KeyMod_CtrlCmd im) (KeyCode_Insert im)] |};
  linux := None;
  weight := KeybindingWeight_EditorContrib im
|}.

Definition copyOptions (h : Host) : ICommandOptions := {|
  id := "editor.action.clipboardCopyAction";
  precondition := None;
  kbOpts := if isNative h then Some copyKbOpts else None;
  menuOpts := Some [
    {| menuId := MenubarEditMenu;
       group := "2_ccp";
       title := nls_localize im "miCopy" "&&Copy";
       when := None;
       order := 2 |};
    {| menuId := EditorContext;
       group := CLIPBOARD_CONTEXT_MENU_GROUP;
       title := nls_localize im "actions.clipboard.copyLabel" "Copy";
       when := None;
       order := 2 |};
    {| menuId := CommandPalette;
       group := "";
       title := nls_localize im "actions.clipboard.copyLabel" "Copy";
       when := None;
       order := 1 |}
  ]
|}.

Definition pasteKbOpts : KbOpts := {|
  kbExpr := textInputFocus;
  binding := {| primary := bitor (KeyMod_CtrlCmd im) (KeyCode_KEY_V im);
                secondary := None |};
  win := Some {| primary := bitor (KeyMod_CtrlCmd im) (KeyCode_KEY_V im);
                 secondary := Some [bitor (KeyMod_Shift im) (KeyCode_Insert im)] |};
  linux := Some {| primary := bitor (KeyMod_CtrlCmd im) (KeyCode_KEY_V im);
                   secondary := Some [bitor (KeyMod_Shift im) (KeyCode_Insert im)] |};
  weight := KeybindingWeight_EditorContrib im
|}.

Definition pasteOptions (h : Host) : ICommandOptions := {|
  id := "editor.action.clipboardPasteAction";
  precondition := None;
  kbOpts := if isNative h then Some pasteKbOpts else None;
  menuOpts := Some [
    {| menuId := MenubarEditMenu;
       group := "2_ccp";
       title := nls_localize im "miPaste" "&&Paste";
       when := None;
       order := 3 |};
    {| menuId := EditorContext;
       group := CLIPBOARD_CONTEXT_MENU_GROUP;
       title := nls_localize im "actions.clipboard.pasteLabel" "Paste";
       when := Some writable;
       order := 3 |};
    {| menuId := CommandPalette;
       group := "";
       title := nls_localize im "actions.clipboard.pasteLabel" "Paste";
       when := None;
       order := 1 |}
  ]
|}.

(** The options [ExecCommandCopyWithSyntaxHighlightingAction]'s constructor
    passes to [super]. *)
Definition copyWithSyntaxHighlightingOptions : IActionOptions := {|
  commandOptions := {|
    id := "editor.action.clipboardCopyWithSyntaxHighlightingAction";
    precondition := None;
    kbOpts := Some {| kbExpr := textInputFocus;
                      binding := {| primary := 0; secondary := None |};
                      win := None;
                      linux := None;
                      weight := KeybindingWeight_EditorContrib im |};
    menuOpts := None
  |};
  label := nls_localize im "actions.clipboard.copyWithSyntaxHighlightingLabel"
                           "Copy With Syntax Highlighting";
  alias := "Copy With Syntax Highlighting"
|}.

Definition commandOptionsOf (h : Host) (browserCommand : BrowserCommand)
  : ICommandOptions :=
  match browserCommand with
  | cut => cutOptions h
  | copy => copyOptions h
  | paste => pasteOptions h
  end.

End Commands.

(** ** Loading the module *)

Section Loading.
Context {E S : Type} `{!ICodeEditor E S}.
Context (im : Imports).

(** A [MultiCommand] object: the options it was constructed with and its
    implementations, each with its priority. *)
Record MultiCommand : Type := {
  options : ICommandOptions;
  _implementations : list (Z * CommandImplementation (E := E))
}.

(** An [EditorAction]: the options given to [super] and the [run] method. *)
Record EditorAction : Type := {
  actionOptions : IActionOptions;
  actionRun : ServicesAccessor E → E → Js E unit
}.

Definition ExecCommandCopyWithSyntaxHighlightingAction : EditorAction := {|
  actionOptions := copyWithSyntaxHighlightingOptions im;
  actionRun := run
|}.

(** The objects created so far (commands are mutated after they have been
    registered and exported, so they live in a store and are named by
    their index in it), and what has been registered. *)
Record Registry : Type := {
  objects : list MultiCommand;
  registeredCommands : list nat;
  registeredEditorActions : list EditorAction
}.

Definition emptyRegistry : Registry := {|
  objects := [];
  registeredCommands := [];
  registeredEditorActions := []
|}.

Definition Load (A : Type) : Type := Registry → A * Registry.

#[local] Instance Load_ret : MRet Load := λ A a r, (a, r).

#[local] Instance Load_bind : MBind Load := λ A B k m r,
  let '(a, r') := m r in k a r'.

(** Modelled from the spec: the constructor of [MultiCommand] is not in
    this module; a new command has its options and no dispatch
    implementation yet. *)
Definition new_MultiCommand (opts : ICommandOptions) : Load nat := λ r,
  (length (objects r),
   {| objects := objects r ++ [{| options := opts; _implementations := [] |}];
      registeredCommands := registeredCommands r;
      registeredEditorActions := registeredEditorActions r |}).

(** Modelled from the spec: [Command.register] is not in this module; the
    call is recorded, and the registered command is the object itself, so
    that implementations added later are seen through the registration. *)
Definition register (command : nat) : Load unit := λ r,
  ((),
   {| objects := objects r;
      registeredCommands := registeredCommands r ++ [command];
      registeredEditorActions := registeredEditorActions r |}).

(** Modelled from the spec: [registerEditorAction] is not in this module;
    the registered action is recorded. *)
Definition registerEditorAction (action : EditorAction) : Load unit := λ r,
  ((),
   {| objects := objects r;
      registeredCommands := registeredCommands r;
      registeredEditorActions := registeredEditorActions r ++ [action] |}).

(** Modelled from the spec: [MultiCommand.addImplementation] is not in this
    module. The spec describes a two-tier dispatch chain in which the
    focused-editor handler (priority 10000) comes before the fallback
    handler (priority 0): implementations are kept by decreasing priority,
    a new one after those of the same priority. *)
Fixpoint insertByPriority (priority : Z) (implementation : CommandImplementation (E := E))
    (impls : list (Z * CommandImplementation (E := E)))
  : list (Z * CommandImplementation (E := E)) :=
  match impls with
  | [] => [(priority, implementation)]
  | (p, i) :: rest =>
      if (p <? priority)%Z then (priority, implementation) :: (p, i) :: rest
      else (p, i) :: insertByPriority priority implementation rest
  end.

(** Modelled from the spec: [MultiCommand.addImplementation], on the object
    named by [target]. *)
Definition addImplementation (target : nat) (priority : Z)
    (implementation : CommandImplementation (E := E)) : Load unit := λ r,
  ((),
   {| objects :=
        alter (λ c, {| options := options c;
                       _implementations :=
                         insertByPriority priority implementation (_implementations c) |})
              target (objects r);
      registeredCommands := registeredCommands r;
      registeredEditorActions := registeredEditorActions r |}).

(** Modelled from the spec: [MultiCommand.runCommand] is not in this
    module. The spec's dispatch goes to either the focused editor's
    handling or the fallback handler: the implementations are tried in
    order and the first one that returns [true] ends the dispatch. *)
Fixpoint runImplementations (impls : list (Z * CommandImplementation (E := E)))
    (accessor : ServicesAccessor E) : Js E unit :=
  match impls with
  | [] => mret ()
  | (_, implementation) :: rest =>
      handled ← implementation accessor;
      if (handled : bool) then mret () else runImplementations rest accessor
  end.

(** Modelled from the spec: [MultiCommand.runCommand] runs the chain of the
    command. *)
Definition runCommand (command : MultiCommand) (accessor : ServicesAccessor E)
  : Js E unit :=
  runImplementations (_implementations command) accessor.

Definition registerCommand (command : nat) : Load nat :=
  register command ;; mret command.

Definition registerExecCommandImpl (target : option nat)
    (browserCommand : BrowserCommand) : Load unit :=
  match target with
  | None => mret ()
  | Some target =>
      addImplementation target 10000 (focusedEditorImpl browserCommand) ;;
      addImplementation target 0 (defaultImpl browserCommand)
  end.

(** The module's exports. *)
Record Exports : Type := {
  CutAction : option nat;
  CopyAction : option nat;
  PasteAction : option nat
}.

(** The top-level statements of the module, in order. *)
Definition load (h : Host) : Load Exports :=
  cutAction ← (if supportsCut h
               then command ← new_MultiCommand (cutOptions im h);
                    registered ← registerCommand command;
                    mret (Some registered)
               else mret None);
  copyAction ← (if supportsCopy h
                then command ← new_MultiCommand (copyOptions im h);
                     registered ← registerCommand command;
                     mret (Some registered)
                else mret None);
  pasteAction ← (if supportsPaste h
                 then command ← new_MultiCommand (pasteOptions im h);
                      registered ← registerCommand command;
                      mret (Some registered)
                 else mret None);
  registerExecCommandImpl cutAction cut ;;
  registerExecCommandImpl copyAction copy ;;
  registerExecCommandImpl pasteAction paste ;;
  (if supportsCopyWithSyntaxHighlighting h
   then registerEditorAction ExecCommandCopyWithSyntaxHighlightingAction
   else mret ()) ;;
  mret {| CutAction := cutAction; CopyAction := copyAction; PasteAction := pasteAction |}.

Definition exportOf (x : Exports) (browserCommand : BrowserCommand) : option nat :=
  match browserCommand with
  | cut => CutAction x
  | copy => CopyAction x
  | paste => PasteAction x
  end.

(** The module after it has been loaded in host [h]. *)
Definition loaded (h : Host) : Exports * Registry := load h emptyRegistry.

(** The object behind an export, if the export is defined. *)
Definition exported (h : Host) (browserCommand : BrowserCommand) : option MultiCommand :=
  target ← exportOf (loaded h).1 browserCommand;
  objects (loaded h).2 !! target.

(** The ids of the commands [register] was called on, in order. *)
Definition registeredIds (r : Registry) : list string :=
  omap (λ command, (λ c, id (options c)) <$> objects r !! command) (registeredCommands r).

(** Modelled from the spec: the menu registry is not in this module;
    registering a command contributes one entry per element of its
    [menuOpts] (none when it has no [menuOpts]), under the command's id. The
    entries of the editor context menu, in registration order: *)
Definition editorContextEntries (r : Registry) : list (string * MenuOpts) :=
  command ← registeredCommands r;
  c ← option_list (objects r !! command);
  item ← default [] (menuOpts (options c));
  if bool_decide (menuId item = EditorContext) then [(id (options c), item)] else [].

(** Modelled from the spec: the menu service is not in this module; an
    entry that carries a [when] condition is offered only where the
    condition holds, an entry without one is always offered. *)
Definition offered (holds : ContextKeyExpr → bool) (item : MenuOpts) : bool :=
  match when item with
  | Some condition => holds condition
  | None => true
  end.

End Loading.

(** ** A concrete editor, for examples *)

Module Sample.

Record Selection : Type := {
  selectionStartLineNumber : positive;
  selectionStartColumn : positive;
  positionLineNumber : positive;
  positionColumn : positive
}.

Record Editor : Type := {
  model : option Selection;
  textFocus : bool;
  emptySelectionClipboardOption : bool
}.

#[global] Instance Editor_ICodeEditor : ICodeEditor Editor Selection := {|
  hasModel e := bool_decide (is_Some (model e));
  hasTextFocus := textFocus;
  getOption e o := match o with emptySelectionClipboard => emptySelectionClipboardOption e end;
  getSelection := model;
  isEmpty s := bool_decide (selectionStartLineNumber s = positionLineNumber s)
               && bool_decide (selectionStartColumn s = positionColumn s)
|}.

Definition caret : Selection := {|
  selectionStartLineNumber := 3; selectionStartColumn := 7;
  positionLineNumber := 3; positionColumn := 7
|}.

Definition word : Selection := {|
  selectionStartLineNumber := 3; selectionStartColumn := 7;
  positionLineNumber := 3; positionColumn := 12
|}.

Definition detached : Editor :=
  {| model := None; textFocus := false; emptySelectionClipboardOption := true |}.

Definition caretEditor : Editor :=
  {| model := Some caret; textFocus := true; emptySelectionClipboardOption := false |}.

Definition wordEditor : Editor :=
  {| model := Some word; textFocus := true; emptySelectionClipboardOption := false |}.

Definition widgetEditor : Editor :=
  {| model := Some word; textFocus := false; emptySelectionClipboardOption := true |}.

Definition imports : Imports := {|
  KeyMod_CtrlCmd := 2048;
  KeyMod_Shift := 1024;
  KeyCode_KEY_X := 54;
  KeyCode_KEY_C := 33;
  KeyCode_KEY_V := 52;
  KeyCode_Delete := 20;
  KeyCode_Insert := 19;
  KeybindingWeight_EditorContrib := 100;
  nls_localize := λ _ message, message
|}.

Definition desktop : Host := {|
  isNative := true; isEdge := false; isChrome := false;
  queryCommandSupported := λ _, true
|}.

Definition chrome : Host := {|
  isNative := false; isEdge := false; isChrome := true;
  queryCommandSupported := λ _, true
|}.

Definition edge : Host := {|
  isNative := false; isEdge := true; isChrome := false;
  queryCommandSupported := λ _, true
|}.

Definition idle : World Editor :=
  {| forceCopyWithSyntaxHighlighting := false; events := [] |}.

End Sample.

(** ** The entries of any menu *)

Section Menus.
Context {E : Type}.

(** Modelled from the spec: the menu registry is not in this module;
    registering a command contributes one entry per element of its
    [menuOpts], under the command's id. The entries of menu [menu], in
    registration order: *)
Definition menuEntries (menu : MenuId) (r : Registry (E := E)) : list (string * MenuOpts) :=
  command ← registeredCommands r;
  c ← option_list (objects r !! command);
  item ← default [] (menuOpts (options c));
  if bool_decide (menuId item = menu) then [(id (options c), item)] else [].

End Menus.

(** ** Host calls that throw *)

(** [editor.focus()] and [document.execCommand] are calls into the host, and
    the module wraps none of them in [try]. [run], [focusedEditorImpl] and
    [defaultImpl] above read them as calls that return. The definitions below
    are the same code against a host whose calls may throw: a [HostCalls]
    says, for a call and the world it is made in, whether the call throws,
    and what. A call is recorded whether it returns or throws. *)
Definition HostCalls (E : Type) : Type := Event E → World E → option JsError.

(** The host none of whose calls throws. *)
Definition quiet {E} : HostCalls E := λ _ _, None.

Definition call {E} (host : HostCalls E) (ev : Event E) : Js E unit := λ w,
  match host ev w with
  | Some error =>
      (Throw error,
       {| forceCopyWithSyntaxHighlighting := forceCopyWithSyntaxHighlighting w;
          events := events w ++ [ev] |})
  | None =>
      (Normal (),
       {| forceCopyWithSyntaxHighlighting := forceCopyWithSyntaxHighlighting w;
          events := events w ++ [ev] |})
  end.

(** The world [w] with the flag at [flag] and the events [evs] added. *)
Definition recorded {E} (w : World E) (flag : bool) (evs : list (Event E)) : World E :=
  {| forceCopyWithSyntaxHighlighting := flag; events := events w ++ evs |}.

Section RuntimeWith.
Context {E S : Type} `{!ICodeEditor E S}.

(** [ExecCommandCopyWithSyntaxHighlightingAction.run], lines 148-163. *)
Definition runWith (host : HostCalls E) (accessor : ServicesAccessor E) (editor : E)
  : Js E unit :=
  if negb (hasModel editor) then mret ()
  else
    let emptySelectionClipboard := getOption editor emptySelectionClipboard in
    skip ← (if negb emptySelectionClipboard
            then match getSelection editor with
                 | Some selection => mret (isEmpty selection)
                 | None => throw TypeError
                 end
            else mret false);
    if (skip : bool) then mret ()
    else
      set_forceCopyWithSyntaxHighlighting true ;;
      call host (EditorFocus editor) ;;
      call host (ExecCommand copy) ;;
      set_forceCopyWithSyntaxHighlighting false.

(** The implementation added with priority 10000, lines 172-188. *)
Definition focusedEditorImplWith (host : HostCalls E) (browserCommand : BrowserCommand)
  : CommandImplementation :=
  λ accessor,
    match getFocusedCodeEditor accessor with
    | Some focusedEditor =>
        if hasTextFocus focusedEditor then
          handled ← (if bool_decide (browserCommand = cut)
                        || bool_decide (browserCommand = copy)
                     then
                       let emptySelectionClipboard :=
                         getOption focusedEditor emptySelectionClipboard in
                       let selection := getSelection focusedEditor in
                       mret (match selection with
                             | Some sel => isEmpty sel && negb emptySelectionClipboard
                             | None => false
                             end)
                     else mret false);
          if (handled : bool) then mret true
          else call host (ExecCommand browserCommand) ;; mret true
        else mret false
    | None => mret false
    end.

(** The implementation added with priority 0, lines 191-195. *)
Definition defaultImplWith (host : HostCalls E) (browserCommand : BrowserCommand)
  : CommandImplementation :=
  λ accessor, call host (ExecCommand browserCommand) ;; mret true.

(** The chain [registerExecCommandImpl] installs on a command, against
    [host]. *)
Definition chainWith (host : HostCalls E) (browserCommand : BrowserCommand)
  : list (Z * CommandImplementation (E := E)) :=
  [(10000%Z, focusedEditorImplWith host browserCommand);
   (0%Z, defaultImplWith host browserCommand)].

End RuntimeWith.

(** * Properties *)

(** The world after one more event. *)
Definition after {E} (w : World E) (ev : Event E) : World E :=
  {| forceCopyWithSyntaxHighlighting := forceCopyWithSyntaxHighlighting w;
     events := events w ++ [ev] |}.

Ltac js_unfold :=
  unfold mbind, mret, Js_bind, Js_ret, document_execCommand, editor_focus,
    set_forceCopyWithSyntaxHighlighting, emit, throw, after in *.

Ltac by_flags h :=
  destruct (supportsCut h), (supportsCopy h), (supportsPaste h);
  try destruct (supportsCopyWithSyntaxHighlighting h);
  try destruct (isEdge h).

(** A literal list has the element: *)
Ltac in_list :=
  repeat first [ apply list_elem_of_here | apply list_elem_of_further ].

(** A literal list of other elements does not: *)
Ltac not_in_list H :=
  repeat (apply elem_of_cons in H as [H|H]; [discriminate H|]);
  by apply elem_of_nil in H.

Section LoadedModule.
Context {E S : Type} `{!ICodeEditor E S}.
Context (im : Imports).

(** What [registerExecCommandImpl] leaves on a command it was given. *)
Definition chainOf (browserCommand : BrowserCommand)
  : list (Z * CommandImplementation (E := E)) :=
  [(10000%Z, focusedEditorImpl browserCommand); (0%Z, defaultImpl browserCommand)].

Lemma exported_spec (h : Host) (browserCommand : BrowserCommand) :
  exported im h browserCommand =
    if supports h browserCommand
    then Some {| options := commandOptionsOf im h browserCommand;
                 _implementations := chainOf browserCommand |}
    else None.
Proof.
  unfold exported, loaded, load, supports.
  destruct browserCommand; by_flags h; reflexivity.
Qed.

Lemma exportOf_spec (h : Host) (browserCommand : BrowserCommand) :
  is_Some (exportOf (loaded im h).1 browserCommand) ↔ supports h browserCommand = true.
Proof.
  unfold loaded, load, supports.
  destruct browserCommand; by_flags h; simpl;
    (split; [ intros [? ?]; congruence | intros ?; try discriminate; eauto ]).
Qed.

Lemma objects_spec (h : Host) :
  objects (loaded im h).2 =
    (browserCommand ← [cut; copy; paste];
     if supports h browserCommand
     then [{| options := commandOptionsOf im h browserCommand;
              _implementations := chainOf browserCommand |}]
     else []).
Proof.
  unfold loaded, load, supports. by_flags h; reflexivity.
Qed.

Lemma registeredCommands_spec (h : Host) :
  registeredCommands (loaded im h).2 = seq 0 (length (objects (loaded im h).2)).
Proof.
  unfold loaded, load. by_flags h; reflexivity.
Qed.

Lemma registeredIds_spec (h : Host) :
  registeredIds (loaded im h).2 =
    (browserCommand ← [cut; copy; paste];
     if supports h browserCommand
     then [id (commandOptionsOf im h browserCommand)]
     else []).
Proof.
  unfold registeredIds, loaded, load, supports. by_flags h; reflexivity.
Qed.

Lemma registeredEditorActions_spec (h : Host) :
  registeredEditorActions (loaded im h).2 =
    if supportsCopyWithSyntaxHighlighting h
    then [ExecCommandCopyWithSyntaxHighlightingAction im]
    else [].
Proof.
  unfold loaded, load.
  destruct (supportsCut h), (supportsCopy h), (supportsPaste h),
    (supportsCopyWithSyntaxHighlighting h); reflexivity.
Qed.

End LoadedModule.

Section Dispatch.
Context {E S : Type} `{!ICodeEditor E S}.
Context (im : Imports).

Implicit Types (accessor : ServicesAccessor E) (w : World E) (editor : E).

(** Without a focused editor that has text focus the first implementation
    declines and does nothing. *)
Lemma focusedEditorImpl_declines browserCommand accessor w :
  (∀ editor, getFocusedCodeEditor accessor = Some editor → hasTextFocus editor = false) →
  focusedEditorImpl browserCommand accessor w = (Normal false, w).
Proof.
  intros Hfocus. unfold focusedEditorImpl.
  destruct (getFocusedCodeEditor accessor) as [editor|]; [|reflexivity].
  rewrite (Hfocus editor eq_refl). reflexivity.
Qed.

(** The guard of cut and copy: an empty selection with the option off is
    handled without a clipboard call. *)
Lemma focusedEditorImpl_guard browserCommand accessor w editor selection :
  browserCommand ≠ paste →
  getFocusedCodeEditor accessor = Some editor →
  hasTextFocus editor = true →
  getSelection editor = Some selection →
  isEmpty selection = true →
  getOption editor emptySelectionClipboard = false →
  focusedEditorImpl browserCommand accessor w = (Normal true, w).
Proof.
  intros Hcmd Hfocused Htext Hsel Hempty Hopt. unfold focusedEditorImpl.
  rewrite Hfocused, Htext, Hsel, Hempty, Hopt.
  destruct browserCommand; [reflexivity | reflexivity | congruence].
Qed.

Lemma focusedEditorImpl_executes browserCommand accessor w editor :
  getFocusedCodeEditor accessor = Some editor →
  hasTextFocus editor = true →
  browserCommand = paste
  ∨ (∀ selection, getSelection editor = Some selection → isEmpty selection = false)
  ∨ getOption editor emptySelectionClipboard = true →
  focusedEditorImpl browserCommand accessor w
    = (Normal true, after w (ExecCommand browserCommand)).
Proof.
  intros Hfocused Htext Hcase. unfold focusedEditorImpl.
  rewrite Hfocused, Htext.
  destruct Hcase as [-> | [Hsel | Hopt]]; [reflexivity | |].
  - destruct (getSelection editor) as [selection|] eqn:Hs.
    + rewrite (Hsel selection eq_refl). destruct browserCommand; reflexivity.
    + destruct browserCommand; reflexivity.
  - rewrite Hopt. destruct (getSelection editor) as [selection|];
      [rewrite andb_false_r|]; destruct browserCommand; reflexivity.
Qed.

Lemma defaultImpl_executes browserCommand accessor w :
  defaultImpl (E := E) browserCommand accessor w
    = (Normal true, after w (ExecCommand browserCommand)).
Proof. reflexivity. Qed.

Lemma runCommand_chain browserCommand accessor w :
  runImplementations (chainOf browserCommand) accessor w =
    match focusedEditorImpl browserCommand accessor w with
    | (Normal true, w') => (Normal (), w')
    | (Normal false, w') => (Normal (), after w' (ExecCommand browserCommand))
    | (Throw e, w') => (Throw e, w')
    end.
Proof.
  unfold chainOf, runImplementations. js_unfold.
  destruct (focusedEditorImpl browserCommand accessor w) as [[[|]|e] w']; reflexivity.
Qed.

Lemma exported_chain (h : Host) browserCommand (command : MultiCommand) :
  exported im h browserCommand = Some command →
  _implementations command = chainOf browserCommand
  ∧ options command = commandOptionsOf im h browserCommand
  ∧ supports h browserCommand = true.
Proof.
  rewrite exported_spec. destruct (supports h browserCommand); [|discriminate].
  intros [= <-]. auto.
Qed.

End Dispatch.

Section DispatchClaims.
Context {E S : Type} `{!ICodeEditor E S}.
Context (im : Imports).

Implicit Types (accessor : ServicesAccessor E) (w : World E) (editor : E).

(** C1, as amended. For a registered cut or copy command: when no code
    editor is focused with text focus, the priority-10000 implementation
    declines and the priority-0 fallback performs the clipboard call on the
    ambient focus target; when an editor is focused with text focus, its
    selection is empty and emptySelectionClipboard is off, the
    priority-10000 implementation handles the command without any
    clipboard call and the fallback does not run. *)
Theorem cut_copy_fallback_only_without_text_focus
    (h : Host) browserCommand (command : MultiCommand) accessor w :
  browserCommand ≠ paste →
  exported im h browserCommand = Some command →
  ((∀ editor, getFocusedCodeEditor accessor = Some editor → hasTextFocus editor = false) →
     focusedEditorImpl browserCommand accessor w = (Normal false, w)
     ∧ runCommand command accessor w = (Normal (), after w (ExecCommand browserCommand)))
  ∧ (∀ editor selection,
       getFocusedCodeEditor accessor = Some editor →
       hasTextFocus editor = true →
       getSelection editor = Some selection →
       isEmpty selection = true →
       getOption editor emptySelectionClipboard = false →
       focusedEditorImpl browserCommand accessor w = (Normal true, w)
       ∧ runCommand command accessor w = (Normal (), w)).
Proof.
  intros Hcmd Hexp. destruct (exported_chain im h _ _ Hexp) as (Himpls & _ & _).
  unfold runCommand. rewrite Himpls, runCommand_chain. split.
  - intros Hfocus. rewrite (focusedEditorImpl_declines _ _ _ Hfocus). auto.
  - intros editor selection Hfocused Htext Hsel Hempty Hopt.
    rewrite (focusedEditorImpl_guard _ _ _ _ _ Hcmd Hfocused Htext Hsel Hempty Hopt).
    auto.
Qed.

(** C2. For a registered cut or copy command (the statement needs no
    restriction on the command), when a code editor is focused with text
    focus and its selection is non-empty or its emptySelectionClipboard
    option is on, the priority-10000 implementation, which is the first of
    the chain, calls document.execCommand with the command's name and
    returns true; the dispatch performs exactly that call. *)
Theorem cut_copy_executes_in_focused_editor
    (h : Host) browserCommand (command : MultiCommand) accessor editor w :
  exported im h browserCommand = Some command →
  getFocusedCodeEditor accessor = Some editor →
  hasTextFocus editor = true →
  (∃ selection, getSelection editor = Some selection ∧ isEmpty selection = false)
  ∨ getOption editor emptySelectionClipboard = true →
  _implementations command
    = [(10000%Z, focusedEditorImpl browserCommand); (0%Z, defaultImpl browserCommand)]
  ∧ focusedEditorImpl browserCommand accessor w
    = (Normal true, after w (ExecCommand browserCommand))
  ∧ runCommand command accessor w = (Normal (), after w (ExecCommand browserCommand)).
Proof.
  intros Hexp Hfocused Htext Hcase.
  destruct (exported_chain im h _ _ Hexp) as (Himpls & _ & _).
  assert (Hrun : focusedEditorImpl browserCommand accessor w
                 = (Normal true, after w (ExecCommand browserCommand))).
  { apply (focusedEditorImpl_executes _ _ _ editor); [done | done |].
    right. destruct Hcase as [(selection & Hsel & Hne) | Hopt]; [left | by right].
    intros selection' Hsel'. congruence. }
  split; [exact Himpls|]. split; [exact Hrun|].
  unfold runCommand. rewrite Himpls, runCommand_chain, Hrun. reflexivity.
Qed.

(** C7. For a registered paste command, when a code editor is focused with
    text focus, the priority-10000 implementation calls
    document.execCommand('paste') whatever the selection and the
    emptySelectionClipboard option are. *)
Theorem paste_executes_in_focused_editor
    (h : Host) (command : MultiCommand) accessor editor w :
  exported im h paste = Some command →
  getFocusedCodeEditor accessor = Some editor →
  hasTextFocus editor = true →
  focusedEditorImpl paste accessor w = (Normal true, after w (ExecCommand paste))
  ∧ runCommand command accessor w = (Normal (), after w (ExecCommand paste)).
Proof.
  intros Hexp Hfocused Htext.
  destruct (exported_chain im h _ _ Hexp) as (Himpls & _ & _).
  assert (Hrun : focusedEditorImpl paste accessor w
                 = (Normal true, after w (ExecCommand paste))).
  { apply (focusedEditorImpl_executes _ _ _ editor); auto. }
  split; [exact Hrun|].
  unfold runCommand. rewrite Himpls, runCommand_chain, Hrun. reflexivity.
Qed.

(** C6. run returns without any effect (no document.execCommand call, no
    focus call, the flag left as it was) whenever the editor has no model,
    or the selection is empty and emptySelectionClipboard is off. *)
Theorem run_guards_do_nothing accessor editor w :
  hasModel editor = false
  ∨ ((∃ selection, getSelection editor = Some selection ∧ isEmpty selection = true)
     ∧ getOption editor emptySelectionClipboard = false) →
  run accessor editor w = (Normal (), w).
Proof.
  unfold run. intros [-> | ((selection & -> & ->) & ->)]; [reflexivity|].
  destruct (hasModel editor); reflexivity.
Qed.

End DispatchClaims.

Section RegistrationClaims.
Context {E S : Type} `{!ICodeEditor E S}.
Context (im : Imports).

(** C4. For each of cut, copy and paste: the export is defined if and only
    if the capability flag is true, and the command is registered if and
    only if the flag is true; when the flag is true the exported object is
    the registered command with its two implementations; when it is false
    the export is undefined and no object for the command exists, so
    nothing is registered, bound or installed for it. *)
Theorem command_exists_iff_supported (h : Host) (browserCommand : BrowserCommand) :
  let commandId :=
    match browserCommand with
    | cut => "editor.action.clipboardCutAction"
    | copy => "editor.action.clipboardCopyAction"
    | paste => "editor.action.clipboardPasteAction"
    end in
  let flag :=
    match browserCommand with
    | cut => supportsCut h
    | copy => supportsCopy h
    | paste => supportsPaste h
    end in
  (is_Some (exportOf (loaded im h).1 browserCommand) ↔ flag = true)
  ∧ (commandId ∈ registeredIds (loaded im h).2 ↔ flag = true)
  ∧ (flag = true →
     ∃ target command,
       exportOf (loaded im h).1 browserCommand = Some target
       ∧ target ∈ registeredCommands (loaded im h).2
       ∧ objects (loaded im h).2 !! target = Some command
       ∧ id (options command) = commandId
       ∧ _implementations command
         = [(10000%Z, focusedEditorImpl browserCommand); (0%Z, defaultImpl browserCommand)])
  ∧ (flag = false →
     exportOf (loaded im h).1 browserCommand = None
     ∧ ∀ command, command ∈ objects (loaded im h).2 → id (options command) ≠ commandId).
Proof.
  intros commandId flag.
  assert (Hflag : flag = supports h browserCommand) by (by destruct browserCommand).
  split; [|split; [|split]].
  - rewrite Hflag. apply exportOf_spec.
  - rewrite registeredIds_spec, Hflag. subst commandId. unfold supports.
    destruct browserCommand; by_flags h; simpl; split; intros Hin;
      first [ reflexivity | discriminate Hin | solve [in_list] | not_in_list Hin ].
  - intros Htrue. rewrite Hflag in Htrue. subst flag commandId.
    unfold loaded, load, supports in *.
    destruct browserCommand; by_flags h; try discriminate; simpl;
      eexists _, _; (split; [reflexivity|]); (split; [solve [in_list]|]);
      (split; [reflexivity|]); split; reflexivity.
  - intros Hfalse. rewrite Hflag in Hfalse. split.
    + destruct (exportOf (loaded im h).1 browserCommand) eqn:Hexp; [|done].
      assert (is_Some (exportOf (loaded im h).1 browserCommand)) as Hs by eauto.
      apply exportOf_spec in Hs. congruence.
    + rewrite objects_spec. subst commandId. unfold supports in *.
      intros command Hin.
      destruct browserCommand; by_flags h; try discriminate; simpl in Hin;
        repeat (apply elem_of_cons in Hin as [->|Hin]; [discriminate|]);
        by apply elem_of_nil in Hin.
Qed.

(** C5. Keybindings depend on the platform: the kbOpts of a registered cut,
    copy or paste command is defined exactly when platform.isNative is
    true. It is then guarded by EditorContextKeys.textInputFocus, has
    primary CtrlCmd+X, CtrlCmd+C or CtrlCmd+V, the Windows secondary
    Shift+Delete, CtrlCmd+Insert or Shift+Insert, and for paste the same
    secondary on Linux; in the browser it is undefined. *)
Theorem keybindings_exactly_when_native
    (h : Host) (browserCommand : BrowserCommand) (command : MultiCommand) :
  exported im h browserCommand = Some command →
  let key :=
    match browserCommand with
    | cut => KeyCode_KEY_X im
    | copy => KeyCode_KEY_C im
    | paste => KeyCode_KEY_V im
    end in
  let alternative :=
    match browserCommand with
    | cut => bitor (KeyMod_Shift im) (KeyCode_Delete im)
    | copy => bitor (KeyMod_CtrlCmd im) (KeyCode_Insert im)
    | paste => bitor (KeyMod_Shift im) (KeyCode_Insert im)
    end in
  let overridden :=
    Some {| primary := bitor (KeyMod_CtrlCmd im) key; secondary := Some [alternative] |} in
  (is_Some (kbOpts (options command)) ↔ isNative h = true)
  ∧ kbOpts (options command) =
      if isNative h
      then Some {| kbExpr := textInputFocus;
                   binding := {| primary := bitor (KeyMod_CtrlCmd im) key;
                                 secondary := None |};
                   win := overridden;
                   linux := match browserCommand with
                            | paste => overridden
                            | _ => None
                            end;
                   weight := KeybindingWeight_EditorContrib im |}
      else None.
Proof.
  intros Hexp key alternative overridden.
  destruct (exported_chain im h _ _ Hexp) as (_ & -> & _).
  subst key alternative overridden.
  destruct browserCommand; simpl; destruct (isNative h); simpl;
    (split; [split; [intros [? ?]; congruence | intros ?; try discriminate; eauto]
            | reflexivity]).
Qed.

(** C8. In a browser (not native) that is Chrome, supportsPaste is false
    whatever document.queryCommandSupported('paste') answers, so PasteAction
    is undefined and the paste command is not registered. *)
Theorem no_paste_in_chrome_browser (h : Host) :
  isNative h = false →
  isChrome h = true →
  supportsPaste h = false
  ∧ PasteAction (loaded im h).1 = None
  ∧ exported im h paste = None
  ∧ "editor.action.clipboardPasteAction" ∉ registeredIds (loaded im h).2.
Proof.
  intros Hnative Hchrome.
  assert (Hpaste : supportsPaste h = false).
  { unfold supportsPaste. by rewrite Hnative, Hchrome. }
  split; [exact Hpaste|]. split; [|split].
  - unfold loaded, load. rewrite Hpaste.
    destruct (supportsCut h), (supportsCopy h),
      (supportsCopyWithSyntaxHighlighting h); reflexivity.
  - rewrite exported_spec. simpl. by rewrite Hpaste.
  - rewrite registeredIds_spec. unfold supports. rewrite Hpaste.
    intros Hin. destruct (supportsCut h), (supportsCopy h); simpl in Hin;
      not_in_list Hin.
Qed.

(** C9. The copy-with-syntax-highlighting action is registered if and only
    if copy is supported and the browser is not Edge; the registered action
    is the one whose run method is [run], and its keybinding has primary 0
    and no secondary or per-platform binding. *)
Theorem copy_with_syntax_highlighting_registered_iff (h : Host) :
  supportsCopyWithSyntaxHighlighting h = supportsCopy h && negb (isEdge h)
  ∧ registeredEditorActions (loaded im h).2
    = (if supportsCopy h && negb (isEdge h)
       then [ExecCommandCopyWithSyntaxHighlightingAction im]
       else [])
  ∧ actionRun (ExecCommandCopyWithSyntaxHighlightingAction im) = run
  ∧ kbOpts (commandOptions (actionOptions (ExecCommandCopyWithSyntaxHighlightingAction im)))
    = Some {| kbExpr := textInputFocus;
              binding := {| primary := 0; secondary := None |};
              win := None;
              linux := None;
              weight := KeybindingWeight_EditorContrib im |}.
Proof.
  split; [reflexivity|]. split; [|split; reflexivity].
  rewrite registeredEditorActions_spec. reflexivity.
Qed.

(** C10. In the editor context menu the cut and paste entries carry the
    condition EditorContextKeys.writable and the copy entry carries none;
    hence, where writable does not hold (a read-only editor), the copy
    entry is the only clipboard entry offered. *)
Theorem context_menu_copy_only_when_read_only (h : Host) (holds : ContextKeyExpr → bool) :
  (λ entry, (entry.1, group entry.2, when entry.2)) <$> editorContextEntries (loaded im h).2
    = (if supportsCut h
       then [("editor.action.clipboardCutAction", "9_cutcopypaste", Some writable)]
       else [])
      ++ (if supportsCopy h
          then [("editor.action.clipboardCopyAction", "9_cutcopypaste", None)]
          else [])
      ++ (if supportsPaste h
          then [("editor.action.clipboardPasteAction", "9_cutcopypaste", Some writable)]
          else [])
  ∧ (holds writable = false →
     (filter (λ entry, offered holds entry.2 = true) (editorContextEntries (loaded im h).2)).*1
       = if supportsCopy h then ["editor.action.clipboardCopyAction"] else []).
Proof.
  unfold editorContextEntries, loaded, load. split.
  - by_flags h; reflexivity.
  - intros Hro.
    destruct (supportsCut h), (supportsCopy h), (supportsPaste h),
      (supportsCopyWithSyntaxHighlighting h);
      cbv; rewrite ?Hro; reflexivity.
Qed.

End RegistrationClaims.

(** * Instances on the sample editor *)

(** C1: with no focused editor the fallback performs the copy; with the
    caret editor focused (empty selection, option off) nothing is called. *)
Lemma cut_copy_fallback_only_without_text_focus_witness :
  let command := {| options := copyOptions Sample.imports Sample.desktop;
                    _implementations := [(10000%Z, focusedEditorImpl copy);
                                         (0%Z, defaultImpl copy)] |} in
  runCommand command {| getFocusedCodeEditor := None |} Sample.idle
    = (Normal (), {| forceCopyWithSyntaxHighlighting := false;
                     events := [ExecCommand copy] |})
  ∧ runCommand command {| getFocusedCodeEditor := Some Sample.caretEditor |} Sample.idle
    = (Normal (), Sample.idle).
Proof.
  intros command. split.
  - refine (proj2 (proj1 (cut_copy_fallback_only_without_text_focus
      Sample.imports Sample.desktop copy command
      {| getFocusedCodeEditor := None |} Sample.idle _ _) _)).
    + discriminate.
    + reflexivity.
    + intros editor Hfocused. discriminate Hfocused.
  - refine (proj2 (proj2 (cut_copy_fallback_only_without_text_focus
      Sample.imports Sample.desktop copy command
      {| getFocusedCodeEditor := Some Sample.caretEditor |} Sample.idle _ _)
      Sample.caretEditor Sample.caret _ _ _ _ _)); first [discriminate | reflexivity].
Defined.

(** C1, as first stated, fails: the caret editor is focused with text focus,
    its selection is empty and emptySelectionClipboard is off, so the
    condition of the claim does not hold; yet the copy command's dispatch
    calls nothing, the fallback does not run. *)
Lemma empty_selection_copy_reaches_no_fallback :
  ∃ command : MultiCommand,
    exported Sample.imports Sample.desktop copy = Some command
    ∧ hasTextFocus Sample.caretEditor = true
    ∧ isEmpty <$> getSelection Sample.caretEditor = Some true
    ∧ getOption Sample.caretEditor emptySelectionClipboard = false
    ∧ runCommand command {| getFocusedCodeEditor := Some Sample.caretEditor |} Sample.idle
      = (Normal (), Sample.idle)
    ∧ (ExecCommand copy
       ∉ events (runCommand command
                   {| getFocusedCodeEditor := Some Sample.caretEditor |} Sample.idle).2).
Proof.
  eexists. split; [reflexivity|]. repeat (split; [reflexivity|]).
  simpl. apply not_elem_of_nil.
Qed.

(** C2: copy with a word selected in the focused editor. *)
Lemma cut_copy_executes_in_focused_editor_witness :
  let command := {| options := copyOptions Sample.imports Sample.desktop;
                    _implementations := [(10000%Z, focusedEditorImpl copy);
                                         (0%Z, defaultImpl copy)] |} in
  let accessor := {| getFocusedCodeEditor := Some Sample.wordEditor |} in
  focusedEditorImpl copy accessor Sample.idle
    = (Normal true, {| forceCopyWithSyntaxHighlighting := false;
                       events := [ExecCommand copy] |})
  ∧ runCommand command accessor Sample.idle
    = (Normal (), {| forceCopyWithSyntaxHighlighting := false;
                     events := [ExecCommand copy] |}).
Proof.
  intros command accessor.
  refine (proj2 (cut_copy_executes_in_focused_editor
    Sample.imports Sample.desktop copy command accessor Sample.wordEditor Sample.idle
    _ _ _ _)).
  - reflexivity.
  - reflexivity.
  - reflexivity.
  - left. exists Sample.word. split; reflexivity.
Defined.

(** C7: paste with an empty selection and the option off is still executed. *)
Lemma paste_executes_in_focused_editor_witness :
  let command := {| options := pasteOptions Sample.imports Sample.desktop;
                    _implementations := [(10000%Z, focusedEditorImpl paste);
                                         (0%Z, defaultImpl paste)] |} in
  let accessor := {| getFocusedCodeEditor := Some Sample.caretEditor |} in
  focusedEditorImpl paste accessor Sample.idle
    = (Normal true, {| forceCopyWithSyntaxHighlighting := false;
                       events := [ExecCommand paste] |})
  ∧ runCommand command accessor Sample.idle
    = (Normal (), {| forceCopyWithSyntaxHighlighting := false;
                     events := [ExecCommand paste] |}).
Proof.
  intros command accessor.
  refine (paste_executes_in_focused_editor
    Sample.imports Sample.desktop command accessor Sample.caretEditor Sample.idle
    _ _ _); reflexivity.
Defined.

(** C3, as first stated, fails: on an editor without a model run makes no
    document.execCommand call and never sets the flag; and where it does
    copy, editor.focus() comes between setting the flag and the call. *)
Lemma run_without_model_makes_no_copy :
  run {| getFocusedCodeEditor := None |} Sample.detached Sample.idle
    = (Normal (), Sample.idle)
  ∧ (ExecCommand copy
     ∉ events (run {| getFocusedCodeEditor := None |} Sample.detached Sample.idle).2)
  ∧ (SetForceCopyWithSyntaxHighlighting true
     ∉ events (run {| getFocusedCodeEditor := None |} Sample.detached Sample.idle).2)
  ∧ run {| getFocusedCodeEditor := None |} Sample.wordEditor Sample.idle
    = (Normal (),
       {| forceCopyWithSyntaxHighlighting := false;
          events := [SetForceCopyWithSyntaxHighlighting true;
                     EditorFocus Sample.wordEditor;
                     ExecCommand copy;
                     SetForceCopyWithSyntaxHighlighting false] |}).
Proof.
  split; [reflexivity|]. split; [apply not_elem_of_nil|].
  split; [apply not_elem_of_nil | reflexivity].
Qed.

(** C6: the detached editor has no model; the caret editor has an empty
    selection and the option off. *)
Lemma run_guards_do_nothing_witness :
  run {| getFocusedCodeEditor := None |} Sample.detached Sample.idle
    = (Normal (), Sample.idle)
  ∧ run {| getFocusedCodeEditor := Some Sample.caretEditor |} Sample.caretEditor Sample.idle
    = (Normal (), Sample.idle).
Proof.
  split.
  - apply (run_guards_do_nothing {| getFocusedCodeEditor := None |}
             Sample.detached Sample.idle).
    left. reflexivity.
  - apply (run_guards_do_nothing {| getFocusedCodeEditor := Some Sample.caretEditor |}
             Sample.caretEditor Sample.idle).
    right. split; [exists Sample.caret; split; reflexivity | reflexivity].
Defined.

(** C5: on the desktop the cut command is bound to CtrlCmd+X (2048 | 54),
    with Shift+Delete (1024 | 20) on Windows; in a browser that supports
    copy, the copy command has no keybinding. *)
Lemma keybindings_exactly_when_native_witness :
  kbOpts (cutOptions Sample.imports Sample.desktop)
    = Some {| kbExpr := textInputFocus;
              binding := {| primary := 2102; secondary := None |};
              win := Some {| primary := 2102; secondary := Some [1044%Z] |};
              linux := None;
              weight := 100 |}
  ∧ kbOpts (copyOptions Sample.imports Sample.edge) = None.
Proof.
  split.
  - refine (proj2 (keybindings_exactly_when_native (E := Sample.Editor)
      Sample.imports Sample.desktop cut
      {| options := cutOptions Sample.imports Sample.desktop;
         _implementations := [(10000%Z, focusedEditorImpl cut); (0%Z, defaultImpl cut)] |}
      _)).
    reflexivity.
  - refine (proj2 (keybindings_exactly_when_native (E := Sample.Editor)
      Sample.imports Sample.edge copy
      {| options := copyOptions Sample.imports Sample.edge;
         _implementations := [(10000%Z, focusedEditorImpl copy); (0%Z, defaultImpl copy)] |}
      _)).
    reflexivity.
Defined.

(** C8: Chrome as a browser answers true to queryCommandSupported('paste'),
    and paste is not there. *)
Lemma no_paste_in_chrome_browser_witness :
  queryCommandSupported Sample.chrome paste = true
  ∧ supportsPaste Sample.chrome = false
  ∧ PasteAction (loaded (E := Sample.Editor) Sample.imports Sample.chrome).1 = None
  ∧ exported (E := Sample.Editor) Sample.imports Sample.chrome paste = None
  ∧ "editor.action.clipboardPasteAction"
    ∉ registeredIds (loaded (E := Sample.Editor) Sample.imports Sample.chrome).2.
Proof.
  split; [reflexivity|].
  apply (no_paste_in_chrome_browser (E := Sample.Editor) Sample.imports Sample.chrome);
    reflexivity.
Defined.

(** * Further properties of the dispatch and of run *)

Section DispatchExtras.
Context {E S : Type} `{!ICodeEditor E S}.
Context (im : Imports).

Implicit Types (accessor : ServicesAccessor E) (w : World E) (editor : E).

Lemma after_neq w (ev : Event E) : after w ev ≠ w.
Proof.
  intros Heq. apply (f_equal (λ x, length (events x))) in Heq.
  simpl in Heq. rewrite length_app in Heq. simpl in Heq. lia.
Qed.

(** X3. A focused editor with text focus whose getSelection() is null does
    not trigger the empty-selection guard: cut and copy are executed even
    when emptySelectionClipboard is off. *)
Theorem null_selection_is_not_guarded browserCommand accessor editor w :
  getFocusedCodeEditor accessor = Some editor →
  hasTextFocus editor = true →
  getSelection editor = None →
  focusedEditorImpl browserCommand accessor w
    = (Normal true, after w (ExecCommand browserCommand)).
Proof.
  intros Hfocused Htext Hsel.
  apply (focusedEditorImpl_executes _ _ _ editor Hfocused Htext).
  right; left. intros selection Hsel'. congruence.
Qed.

(** X4. The action and the copy command agree on the guard: for a focused
    editor with a model, text focus and a selection, run does nothing
    exactly when the copy command's priority-10000 implementation handles
    the command without a clipboard call. *)
Theorem run_skips_iff_copy_command_skips accessor editor selection w :
  getFocusedCodeEditor accessor = Some editor →
  hasModel editor = true →
  hasTextFocus editor = true →
  getSelection editor = Some selection →
  run accessor editor w = (Normal (), w)
  ↔ focusedEditorImpl copy accessor w = (Normal true, w).
Proof.
  intros Hfocused Hmodel Htext Hsel.
  unfold run, focusedEditorImpl. rewrite Hfocused, Hmodel, Htext, Hsel. simpl.
  destruct (getOption editor emptySelectionClipboard), (isEmpty selection);
    simpl; js_unfold; simpl; split; intros Heq; try reflexivity; exfalso;
    apply (f_equal (λ x, length (events x.2))) in Heq; simpl in Heq;
    rewrite ?length_app in Heq; simpl in Heq; lia.
Qed.

End DispatchExtras.

(** * Further properties of the loaded module *)

Section LoadingExtras.
Context {E S : Type} `{!ICodeEditor E S}.
Context (im : Imports).

Lemma editorContextEntries_menuEntries (r : Registry (E := E)) :
  editorContextEntries r = menuEntries EditorContext r.
Proof. reflexivity. Qed.

(** X6. On a native host the answers of document.queryCommandSupported and
    the browser flags do not matter: cut, copy and paste are all exported
    and registered, in this order, each with a keybinding. *)
Theorem native_host_registers_all (h : Host) :
  isNative h = true →
  registeredIds (loaded im h).2
    = ["editor.action.clipboardCutAction";
       "editor.action.clipboardCopyAction";
       "editor.action.clipboardPasteAction"]
  ∧ ∀ browserCommand,
      ∃ command,
        exported im h browserCommand = Some command
        ∧ is_Some (kbOpts (options command)).
Proof.
  intros Hnative.
  assert (Hall : ∀ browserCommand, supports h browserCommand = true).
  { intros []; unfold supports, supportsCut, supportsCopy, supportsPaste;
      by rewrite Hnative. }
  split.
  - rewrite registeredIds_spec.
    pose proof (Hall cut) as Hcut. pose proof (Hall copy) as Hcopy.
    pose proof (Hall paste) as Hpaste. simpl in *. by rewrite Hcut, Hcopy, Hpaste.
  - intros browserCommand. rewrite exported_spec, Hall. eexists. split; [reflexivity|].
    destruct browserCommand; simpl; rewrite Hnative; eauto.
Qed.

(** X7. The three exports never alias: two different commands that are both
    exported are different objects, with different ids, and each object
    holds only the two implementations of its own command. *)
Theorem exports_do_not_alias (h : Host) (c1 c2 : BrowserCommand) (t1 t2 : nat) :
  c1 ≠ c2 →
  exportOf (loaded im h).1 c1 = Some t1 →
  exportOf (loaded im h).1 c2 = Some t2 →
  t1 ≠ t2
  ∧ ∃ command1 command2,
      objects (loaded im h).2 !! t1 = Some command1
      ∧ objects (loaded im h).2 !! t2 = Some command2
      ∧ id (options command1) ≠ id (options command2)
      ∧ _implementations command1 = [(10000%Z, focusedEditorImpl c1); (0%Z, defaultImpl c1)]
      ∧ _implementations command2 = [(10000%Z, focusedEditorImpl c2); (0%Z, defaultImpl c2)].
Proof.
  intros Hne. unfold loaded, load.
  destruct c1, c2; try done;
    destruct (supportsCut h), (supportsCopy h), (supportsPaste h),
      (supportsCopyWithSyntaxHighlighting h); simpl;
    intros [= <-] [= <-]; (split; [discriminate|]);
    eexists _, _; (split; [reflexivity|]); (split; [reflexivity|]);
    (split; [discriminate|]); split; reflexivity.
Qed.

(** X8. The copy-with-syntax-highlighting action is never registered without
    the copy command: whenever the action is registered, CopyAction is
    defined and registered, and the browser is not Edge. *)
Theorem syntax_highlighting_action_implies_copy_command (h : Host) :
  registeredEditorActions (loaded im h).2 ≠ [] →
  is_Some (CopyAction (loaded im h).1)
  ∧ "editor.action.clipboardCopyAction" ∈ registeredIds (loaded im h).2
  ∧ isEdge h = false.
Proof.
  rewrite registeredEditorActions_spec. unfold supportsCopyWithSyntaxHighlighting.
  destruct (supportsCopy h) eqn:Hcopy; simpl; [|done].
  destruct (isEdge h); simpl; [done|]. intros _.
  split; [|split; [|reflexivity]].
  - apply (exportOf_spec im h copy). exact Hcopy.
  - rewrite registeredIds_spec. unfold supports. rewrite Hcopy.
    destruct (supportsCut h), (supportsPaste h); simpl; in_list.
Qed.

(** X9. Every registered command has exactly one entry in each of the three
    menus (menubar Edit menu, editor context menu, command palette): the ids
    of a menu's entries are the registered ids, in registration order. *)
Theorem every_menu_lists_registered_commands (h : Host) (menu : MenuId) :
  (menuEntries menu (loaded im h).2).*1 = registeredIds (loaded im h).2.
Proof.
  unfold menuEntries, registeredIds, loaded, load.
  destruct menu; by_flags h; reflexivity.
Qed.

(** X10. Only the context-menu entries are conditional: no entry of the
    menubar Edit menu or of the command palette carries a when condition, so
    cut and paste stay offered there in a read-only editor. In the menubar
    the entries are in group 2_ccp with orders 1, 2, 3 for cut, copy, paste;
    in the palette all have order 1 and no group. *)
Theorem menubar_and_palette_entries_unconditional
    (h : Host) (holds : ContextKeyExpr → bool) :
  (∀ menu entry,
     menu ≠ EditorContext →
     entry ∈ menuEntries menu (loaded im h).2 →
     when entry.2 = None ∧ offered holds entry.2 = true)
  ∧ (λ entry, (entry.1, group entry.2, order entry.2))
      <$> menuEntries MenubarEditMenu (loaded im h).2
    = (if supportsCut h then [("editor.action.clipboardCutAction", "2_ccp", 1%Z)] else [])
      ++ (if supportsCopy h then [("editor.action.clipboardCopyAction", "2_ccp", 2%Z)] else [])
      ++ (if supportsPaste h then [("editor.action.clipboardPasteAction", "2_ccp", 3%Z)] else [])
  ∧ (λ entry, (entry.1, group entry.2, order entry.2))
      <$> menuEntries CommandPalette (loaded im h).2
    = (if supportsCut h then [("editor.action.clipboardCutAction", "", 1%Z)] else [])
      ++ (if supportsCopy h then [("editor.action.clipboardCopyAction", "", 1%Z)] else [])
      ++ (if supportsPaste h then [("editor.action.clipboardPasteAction", "", 1%Z)] else []).
Proof.
  unfold menuEntries, loaded, load. split; [|split].
  - intros menu entry Hmenu Hin.
    destruct menu; [| done |];
      destruct (supportsCut h), (supportsCopy h), (supportsPaste h),
        (supportsCopyWithSyntaxHighlighting h); simpl in Hin;
      repeat (apply elem_of_cons in Hin as [->|Hin]; [by split|]);
      by apply elem_of_nil in Hin.
  - by_flags h; reflexivity.
  - by_flags h; reflexivity.
Qed.

End LoadingExtras.

(** * The key chords *)

Section Chords.
Context (im : Imports).

Local Open Scope Z_scope.

Lemma int32_small (z : Z) : -2 ^ 31 ≤ z < 2 ^ 31 → int32 z = z.
Proof. intros Hz. unfold int32. rewrite Z.mod_small; lia. Qed.

Lemma bitor_low_bits (n modifier key : Z) :
  0 ≤ n ≤ 31 →
  0 ≤ modifier < 2 ^ 31 →
  modifier `mod` 2 ^ n = 0 →
  0 ≤ key < 2 ^ n →
  bitor modifier key `mod` 2 ^ n = key
  ∧ Z.land (bitor modifier key) modifier = modifier.
Proof.
  intros Hn Hmod Hmul Hkey.
  assert (2 ^ n ≤ 2 ^ 31) by (apply Z.pow_le_mono_r; lia).
  unfold bitor. rewrite !int32_small by lia. split.
  - rewrite <- Z.land_ones by lia. rewrite Z.land_lor_distr_l.
    rewrite !Z.land_ones by lia. rewrite Hmul, Z.mod_small by lia. reflexivity.
  - apply Z.bits_inj'. intros i Hi. rewrite Z.land_spec, Z.lor_spec.
    destruct (Z.testbit modifier i), (Z.testbit key i); reflexivity.
Qed.

(** X11. When the key codes occupy the low n bits and KeyMod.CtrlCmd lies
    above them (as a non-negative 32-bit value), the primary chord of each of
    the three keybindings decodes: its low n bits are the key code and it
    contains the CtrlCmd modifier. So the chords of cut, copy and paste are
    pairwise distinct whenever the three key codes are. *)
Theorem primary_chords_decode (n : Z) :
  0 ≤ n ≤ 31 →
  0 ≤ KeyMod_CtrlCmd im < 2 ^ 31 →
  KeyMod_CtrlCmd im `mod` 2 ^ n = 0 →
  0 ≤ KeyCode_KEY_X im < 2 ^ n →
  0 ≤ KeyCode_KEY_C im < 2 ^ n →
  0 ≤ KeyCode_KEY_V im < 2 ^ n →
  (primary (binding (cutKbOpts im)) `mod` 2 ^ n = KeyCode_KEY_X im
   ∧ primary (binding (copyKbOpts im)) `mod` 2 ^ n = KeyCode_KEY_C im
   ∧ primary (binding (pasteKbOpts im)) `mod` 2 ^ n = KeyCode_KEY_V im)
  ∧ (∀ k, k ∈ [cutKbOpts im; copyKbOpts im; pasteKbOpts im] →
       Z.land (primary (binding k)) (KeyMod_CtrlCmd im) = KeyMod_CtrlCmd im)
  ∧ (KeyCode_KEY_X im ≠ KeyCode_KEY_C im →
     KeyCode_KEY_X im ≠ KeyCode_KEY_V im →
     KeyCode_KEY_C im ≠ KeyCode_KEY_V im →
     primary (binding (cutKbOpts im)) ≠ primary (binding (copyKbOpts im))
     ∧ primary (binding (cutKbOpts im)) ≠ primary (binding (pasteKbOpts im))
     ∧ primary (binding (copyKbOpts im)) ≠ primary (binding (pasteKbOpts im))).
Proof.
  intros Hn Hmod Hmul Hx Hc Hv.
  destruct (bitor_low_bits n _ _ Hn Hmod Hmul Hx) as [Hx1 Hx2].
  destruct (bitor_low_bits n _ _ Hn Hmod Hmul Hc) as [Hc1 Hc2].
  destruct (bitor_low_bits n _ _ Hn Hmod Hmul Hv) as [Hv1 Hv2].
  simpl. split; [auto|]. split.
  - intros k Hk.
    repeat (apply elem_of_cons in Hk as [->|Hk]; [assumption|]).
    by apply elem_of_nil in Hk.
  - intros Hxc Hxv Hcv. repeat split; intros Heq.
    + apply Hxc. rewrite <- Hx1, <- Hc1. by rewrite Heq.
    + apply Hxv. rewrite <- Hx1, <- Hv1. by rewrite Heq.
    + apply Hcv. rewrite <- Hc1, <- Hv1. by rewrite Heq.
Qed.

End Chords.

(** * Further instances on the sample editor *)

(** X3: an editor with text focus and no selection object, option off: cut
    is executed. *)
Lemma null_selection_is_not_guarded_witness :
  let editor := {| Sample.model := None; Sample.textFocus := true;
                   Sample.emptySelectionClipboardOption := false |} in
  focusedEditorImpl cut {| getFocusedCodeEditor := Some editor |} Sample.idle
    = (Normal true, {| forceCopyWithSyntaxHighlighting := false;
                       events := [ExecCommand cut] |}).
Proof.
  intros editor.
  apply (null_selection_is_not_guarded cut {| getFocusedCodeEditor := Some editor |}
           editor Sample.idle); reflexivity.
Defined.

(** X4: the caret editor (both skip) and the word editor (both copy). *)
Lemma run_skips_iff_copy_command_skips_witness :
  (run {| getFocusedCodeEditor := Some Sample.caretEditor |} Sample.caretEditor Sample.idle
     = (Normal (), Sample.idle)
   ↔ focusedEditorImpl copy {| getFocusedCodeEditor := Some Sample.caretEditor |} Sample.idle
     = (Normal true, Sample.idle))
  ∧ (run {| getFocusedCodeEditor := Some Sample.wordEditor |} Sample.wordEditor Sample.idle
       = (Normal (), Sample.idle)
     ↔ focusedEditorImpl copy {| getFocusedCodeEditor := Some Sample.wordEditor |} Sample.idle
       = (Normal true, Sample.idle)).
Proof.
  split.
  - apply (run_skips_iff_copy_command_skips
             {| getFocusedCodeEditor := Some Sample.caretEditor |}
             Sample.caretEditor Sample.caret Sample.idle); reflexivity.
  - apply (run_skips_iff_copy_command_skips
             {| getFocusedCodeEditor := Some Sample.wordEditor |}
             Sample.wordEditor Sample.word Sample.idle); reflexivity.
Defined.

(** X6: a native host whose document supports no command at all. *)
Lemma native_host_registers_all_witness :
  let h := {| isNative := true; isEdge := true; isChrome := true;
              queryCommandSupported := λ _, false |} in
  registeredIds (loaded (E := Sample.Editor) Sample.imports h).2
    = ["editor.action.clipboardCutAction";
       "editor.action.clipboardCopyAction";
       "editor.action.clipboardPasteAction"]
  ∧ ∀ browserCommand,
      ∃ command,
        exported (E := Sample.Editor) Sample.imports h browserCommand = Some command
        ∧ is_Some (kbOpts (options command)).
Proof.
  intros h.
  apply (native_host_registers_all (E := Sample.Editor) Sample.imports h).
  reflexivity.
Defined.

(** X7: on the desktop cut is object 0 and paste is object 2. *)
Lemma exports_do_not_alias_witness :
  (0 ≠ 2)%nat
  ∧ ∃ command1 command2 : MultiCommand (E := Sample.Editor),
      objects (loaded Sample.imports Sample.desktop).2 !! 0%nat = Some command1
      ∧ objects (loaded Sample.imports Sample.desktop).2 !! 2%nat = Some command2
      ∧ id (options command1) ≠ id (options command2)
      ∧ _implementations command1 = [(10000%Z, focusedEditorImpl cut); (0%Z, defaultImpl cut)]
      ∧ _implementations command2
        = [(10000%Z, focusedEditorImpl paste); (0%Z, defaultImpl paste)].
Proof.
  apply (exports_do_not_alias (E := Sample.Editor) Sample.imports Sample.desktop
           cut paste 0%nat 2%nat); [discriminate | reflexivity | reflexivity].
Defined.

(** X8: on the desktop the action is registered, and so is copy. *)
Lemma syntax_highlighting_action_implies_copy_command_witness :
  is_Some (CopyAction (loaded (E := Sample.Editor) Sample.imports Sample.desktop).1)
  ∧ "editor.action.clipboardCopyAction"
    ∈ registeredIds (loaded (E := Sample.Editor) Sample.imports Sample.desktop).2
  ∧ isEdge Sample.desktop = false.
Proof.
  apply (syntax_highlighting_action_implies_copy_command (E := Sample.Editor)
           Sample.imports Sample.desktop).
  simpl. discriminate.
Defined.

(** X11: with CtrlCmd = 2048 and key codes below 256, the low eight bits of
    the chords 2102, 2081 and 2100 are the key codes 54, 33 and 52. *)
Lemma primary_chords_decode_witness :
  (primary (binding (cutKbOpts Sample.imports)) `mod` 2 ^ 8 = 54
   ∧ primary (binding (copyKbOpts Sample.imports)) `mod` 2 ^ 8 = 33
   ∧ primary (binding (pasteKbOpts Sample.imports)) `mod` 2 ^ 8 = 52)%Z.
Proof.
  refine (proj1 (primary_chords_decode Sample.imports 8 _ _ _ _ _ _));
    simpl; first [lia | reflexivity].
Defined.

(** * The flag and the dispatch when host calls may throw *)

Section HostThrows.
Context {E S : Type} `{!ICodeEditor E S}.
Context (im : Imports).

Implicit Types (host : HostCalls E) (accessor : ServicesAccessor E)
  (w : World E) (editor : E).

Lemma recorded_app w flag (evs evs' : list (Event E)) :
  {| forceCopyWithSyntaxHighlighting := flag; events := (events w ++ evs) ++ evs' |}
  = recorded w flag (evs ++ evs').
Proof. unfold recorded. by rewrite app_assoc. Qed.

Lemma recorded_neq w flag (ev : Event E) (evs : list (Event E)) :
  recorded w flag (ev :: evs) ≠ w.
Proof.
  intros Heq. apply (f_equal (λ x, length (events x))) in Heq.
  simpl in Heq. rewrite length_app in Heq. simpl in Heq. lia.
Qed.

(** For a host whose calls return, the definitions are those read first. *)
Lemma runWith_quiet accessor editor : runWith quiet accessor editor = run accessor editor.
Proof. reflexivity. Qed.

Lemma chainWith_quiet browserCommand :
  chainWith (E := E) quiet browserCommand = chainOf browserCommand.
Proof. reflexivity. Qed.

(** Past the guards, run goes as far as the host lets it. *)
Lemma runWith_past_guards host accessor editor w :
  hasModel editor = true →
  getOption editor emptySelectionClipboard = true
  ∨ (∃ selection, getSelection editor = Some selection ∧ isEmpty selection = false) →
  runWith host accessor editor w =
    match host (EditorFocus editor)
            (recorded w true [SetForceCopyWithSyntaxHighlighting true]) with
    | Some error =>
        (Throw error,
         recorded w true [SetForceCopyWithSyntaxHighlighting true; EditorFocus editor])
    | None =>
        match host (ExecCommand copy)
                (recorded w true [SetForceCopyWithSyntaxHighlighting true;
                                  EditorFocus editor]) with
        | Some error =>
            (Throw error,
             recorded w true [SetForceCopyWithSyntaxHighlighting true;
                              EditorFocus editor; ExecCommand copy])
        | None =>
            (Normal (),
             recorded w false [SetForceCopyWithSyntaxHighlighting true;
                               EditorFocus editor; ExecCommand copy;
                               SetForceCopyWithSyntaxHighlighting false])
        end
    end.
Proof.
  intros Hmodel Hpass. unfold runWith. rewrite Hmodel. simpl.
  assert (Hskip :
    (if negb (getOption editor emptySelectionClipboard)
     then match getSelection editor with
          | Some selection => mret (isEmpty selection)
          | None => throw TypeError
          end
     else mret false) w = (Normal false, w)).
  { destruct Hpass as [-> | (selection & -> & ->)]; [reflexivity|].
    destruct (getOption editor emptySelectionClipboard); reflexivity. }
  unfold mbind at 1, Js_bind at 1. rewrite Hskip. simpl.
  js_unfold. unfold call, recorded. simpl. rewrite <- !app_assoc. simpl.
  destruct (host (EditorFocus editor) _) as [error|];
    simpl; rewrite <- ?app_assoc; simpl; [reflexivity|].
  destruct (host (ExecCommand copy) _) as [error|];
    simpl; rewrite <- ?app_assoc; reflexivity.
Qed.

Lemma runWith_stopped host accessor editor w :
  hasModel editor = false
  ∨ (getOption editor emptySelectionClipboard = false
     ∧ ∃ selection, getSelection editor = Some selection ∧ isEmpty selection = true) →
  runWith host accessor editor w = (Normal (), w).
Proof.
  unfold runWith. intros [-> | (-> & selection & -> & ->)]; [reflexivity|].
  destruct (hasModel editor); reflexivity.
Qed.


(** C3, as amended. An execution of run that passes both guards (the editor
    has a model, and emptySelectionClipboard is on or the selection is not
    empty) and returns has set the flag to true, then called editor.focus(),
    then called document.execCommand('copy') once, and set the flag back to
    false immediately after it; it does return whenever neither host call
    throws. An execution stopped by a guard calls nothing and leaves the flag
    as it was. So whenever run returns, the flag is false if it was false
    when run was entered. *)
Theorem run_flag_false_on_return host accessor editor w :
  let passes :=
    hasModel editor = true
    ∧ (getOption editor emptySelectionClipboard = true
       ∨ ∃ selection, getSelection editor = Some selection ∧ isEmpty selection = false) in
  let copied :=
    recorded w false [SetForceCopyWithSyntaxHighlighting true;
                      EditorFocus editor;
                      ExecCommand copy;
                      SetForceCopyWithSyntaxHighlighting false] in
  (passes →
   (runWith host accessor editor w).1 = Normal () →
   (runWith host accessor editor w).2 = copied)
  ∧ (passes →
     host (EditorFocus editor)
       (recorded w true [SetForceCopyWithSyntaxHighlighting true]) = None →
     host (ExecCommand copy)
       (recorded w true [SetForceCopyWithSyntaxHighlighting true; EditorFocus editor])
     = None →
     runWith host accessor editor w = (Normal (), copied))
  ∧ (hasModel editor = false
     ∨ (getOption editor emptySelectionClipboard = false
        ∧ ∃ selection, getSelection editor = Some selection ∧ isEmpty selection = true) →
     runWith host accessor editor w = (Normal (), w))
  ∧ ((runWith host accessor editor w).1 = Normal () →
     forceCopyWithSyntaxHighlighting w = false →
     forceCopyWithSyntaxHighlighting (runWith host accessor editor w).2 = false).
Proof.
  intros passes copied. subst passes copied. split; [|split; [|split]].
  - intros [Hmodel Hpass]. rewrite (runWith_past_guards _ _ _ _ Hmodel Hpass).
    destruct (host (EditorFocus editor) _); [discriminate|].
    destruct (host (ExecCommand copy) _); [discriminate | reflexivity].
  - intros [Hmodel Hpass] Hfocus Hexec.
    by rewrite (runWith_past_guards _ _ _ _ Hmodel Hpass), Hfocus, Hexec.
  - apply runWith_stopped.
  - intros Hreturn Hflag.
    destruct (hasModel editor) eqn:Hmodel;
      [|by rewrite runWith_stopped by (by left)].
    assert (Hpast : getOption editor emptySelectionClipboard = true
                    ∨ (∃ selection, getSelection editor = Some selection
                                    ∧ isEmpty selection = false) →
                    forceCopyWithSyntaxHighlighting (runWith host accessor editor w).2
                    = false).
    { intros Hpass. rewrite (runWith_past_guards _ _ _ _ Hmodel Hpass) in Hreturn |- *.
      destruct (host (EditorFocus editor) _); [discriminate|].
      destruct (host (ExecCommand copy) _); [discriminate | reflexivity]. }
    destruct (getOption editor emptySelectionClipboard) eqn:Hopt;
      [apply Hpast; by left|].
    destruct (getSelection editor) as [selection|] eqn:Hsel.
    + destruct (isEmpty selection) eqn:Hempty.
      * rewrite runWith_stopped by (right; eauto). exact Hflag.
      * apply Hpast. right. eauto.
    + unfold runWith in Hreturn. rewrite Hmodel, Hopt, Hsel in Hreturn.
      discriminate Hreturn.
Qed.

Lemma focusedEditorImplWith_declines host browserCommand accessor w :
  (∀ editor, getFocusedCodeEditor accessor = Some editor → hasTextFocus editor = false) →
  focusedEditorImplWith host browserCommand accessor w = (Normal false, w).
Proof.
  intros Hfocus. unfold focusedEditorImplWith.
  destruct (getFocusedCodeEditor accessor) as [editor|]; [|reflexivity].
  rewrite (Hfocus editor eq_refl). reflexivity.
Qed.

Lemma focusedEditorImplWith_guard host browserCommand accessor w editor selection :
  browserCommand ≠ paste →
  getFocusedCodeEditor accessor = Some editor →
  hasTextFocus editor = true →
  getSelection editor = Some selection →
  isEmpty selection = true →
  getOption editor emptySelectionClipboard = false →
  focusedEditorImplWith host browserCommand accessor w = (Normal true, w).
Proof.
  intros Hcmd Hfocused Htext Hsel Hempty Hopt. unfold focusedEditorImplWith.
  rewrite Hfocused, Htext, Hsel, Hempty, Hopt.
  destruct browserCommand; [reflexivity | reflexivity | congruence].
Qed.

Lemma focusedEditorImplWith_executes host browserCommand accessor w editor :
  getFocusedCodeEditor accessor = Some editor →
  hasTextFocus editor = true →
  browserCommand = paste
  ∨ (∀ selection, getSelection editor = Some selection → isEmpty selection = false)
  ∨ getOption editor emptySelectionClipboard = true →
  focusedEditorImplWith host browserCommand accessor w =
    match host (ExecCommand browserCommand) w with
    | Some error =>
        (Throw error,
         recorded w (forceCopyWithSyntaxHighlighting w) [ExecCommand browserCommand])
    | None =>
        (Normal true,
         recorded w (forceCopyWithSyntaxHighlighting w) [ExecCommand browserCommand])
    end.
Proof.
  intros Hfocused Htext Hcase. unfold focusedEditorImplWith.
  rewrite Hfocused, Htext.
  assert (Hcall : (call host (ExecCommand browserCommand) ;; mret true) w =
    match host (ExecCommand browserCommand) w with
    | Some error =>
        (Throw error,
         recorded w (forceCopyWithSyntaxHighlighting w) [ExecCommand browserCommand])
    | None =>
        (Normal true,
         recorded w (forceCopyWithSyntaxHighlighting w) [ExecCommand browserCommand])
    end).
  { js_unfold. unfold call, recorded.
    destruct (host (ExecCommand browserCommand) w); reflexivity. }
  destruct Hcase as [-> | [Hsel | Hopt]]; [exact Hcall | |].
  - destruct (getSelection editor) as [selection|] eqn:Hs.
    + rewrite (Hsel selection eq_refl). destruct browserCommand; exact Hcall.
    + destruct browserCommand; exact Hcall.
  - rewrite Hopt. destruct (getSelection editor) as [selection|];
      [rewrite andb_false_r|]; destruct browserCommand; exact Hcall.
Qed.

Lemma runImplementations_chainWith host browserCommand accessor w :
  runImplementations (chainWith host browserCommand) accessor w =
    match focusedEditorImplWith host browserCommand accessor w with
    | (Normal true, w') => (Normal (), w')
    | (Normal false, w') =>
        match host (ExecCommand browserCommand) w' with
        | Some error =>
            (Throw error,
             recorded w' (forceCopyWithSyntaxHighlighting w') [ExecCommand browserCommand])
        | None =>
            (Normal (),
             recorded w' (forceCopyWithSyntaxHighlighting w') [ExecCommand browserCommand])
        end
    | (Throw error, w') => (Throw error, w')
    end.
Proof.
  unfold chainWith, runImplementations, defaultImplWith. js_unfold. unfold call, recorded.
  destruct (focusedEditorImplWith host browserCommand accessor w) as [[[|]|error] w'];
    [reflexivity | | reflexivity].
  destruct (host (ExecCommand browserCommand) w'); reflexivity.
Qed.

(** The three ways the priority-10000 implementation can go. *)
Lemma focusedEditorImplWith_cases host browserCommand accessor w :
  ((∀ editor, getFocusedCodeEditor accessor = Some editor → hasTextFocus editor = false)
   ∧ focusedEditorImplWith host browserCommand accessor w = (Normal false, w))
  ∨ ((browserCommand ≠ paste
      ∧ ∃ editor selection,
          getFocusedCodeEditor accessor = Some editor
          ∧ hasTextFocus editor = true
          ∧ getSelection editor = Some selection
          ∧ isEmpty selection = true
          ∧ getOption editor emptySelectionClipboard = false)
     ∧ focusedEditorImplWith host browserCommand accessor w = (Normal true, w))
  ∨ ((∃ editor, getFocusedCodeEditor accessor = Some editor ∧ hasTextFocus editor = true)
     ∧ ¬ (browserCommand ≠ paste
          ∧ ∃ editor selection,
              getFocusedCodeEditor accessor = Some editor
              ∧ hasTextFocus editor = true
              ∧ getSelection editor = Some selection
              ∧ isEmpty selection = true
              ∧ getOption editor emptySelectionClipboard = false)
     ∧ focusedEditorImplWith host browserCommand accessor w =
         match host (ExecCommand browserCommand) w with
         | Some error =>
             (Throw error,
              recorded w (forceCopyWithSyntaxHighlighting w) [ExecCommand browserCommand])
         | None =>
             (Normal true,
              recorded w (forceCopyWithSyntaxHighlighting w) [ExecCommand browserCommand])
         end).
Proof.
  destruct (getFocusedCodeEditor accessor) as [editor|] eqn:Hfocused.
  2:{ left. split; [intros editor' Hf; discriminate Hf|].
      apply focusedEditorImplWith_declines. intros editor' Hf. congruence. }
  destruct (hasTextFocus editor) eqn:Htext.
  2:{ left. split; [intros editor' [= <-]; exact Htext|].
      apply focusedEditorImplWith_declines. intros editor' Hf. congruence. }
  assert (Hexec : browserCommand = paste
                  ∨ (∀ selection, getSelection editor = Some selection →
                                  isEmpty selection = false)
                  ∨ getOption editor emptySelectionClipboard = true →
    (∃ editor', Some editor = Some editor' ∧ hasTextFocus editor' = true)
    ∧ ¬ (browserCommand ≠ paste
         ∧ ∃ editor' selection,
             Some editor = Some editor'
             ∧ hasTextFocus editor' = true
             ∧ getSelection editor' = Some selection
             ∧ isEmpty selection = true
             ∧ getOption editor' emptySelectionClipboard = false)
    ∧ focusedEditorImplWith host browserCommand accessor w =
        match host (ExecCommand browserCommand) w with
        | Some error =>
            (Throw error,
             recorded w (forceCopyWithSyntaxHighlighting w) [ExecCommand browserCommand])
        | None =>
            (Normal true,
             recorded w (forceCopyWithSyntaxHighlighting w) [ExecCommand browserCommand])
        end).
  { intros Hcase. split; [eauto|]. split.
    - intros (Hcmd & editor' & selection & [= <-] & _ & Hsel & Hempty & Hopt).
      destruct Hcase as [-> | [Hne | Hon]]; [done | |].
      + specialize (Hne selection Hsel). congruence.
      + congruence.
    - by apply (focusedEditorImplWith_executes _ _ _ _ editor). }
  destruct (decide (browserCommand = paste)) as [Hpaste | Hpaste];
    [right; right; apply Hexec; by left|].
  destruct (getSelection editor) as [selection|] eqn:Hsel.
  2:{ right; right. apply Hexec. right; left. intros selection' Hs. discriminate Hs. }
  destruct (isEmpty selection) eqn:Hempty.
  2:{ right; right. apply Hexec. right; left. intros selection' [= <-]. exact Hempty. }
  destruct (getOption editor emptySelectionClipboard) eqn:Hopt;
    [right; right; apply Hexec; by right; right|].
  right; left. split; [split; [exact Hpaste | by exists editor, selection]|].
  by apply (focusedEditorImplWith_guard _ _ _ _ editor selection).
Qed.


(** X2. The chain of a registered command is the two implementations of its
    own command. Run against a document whose execCommand may throw, a
    dispatch makes at most one call, document.execCommand with the command's
    own name, and never touches the flag; it ends by an exception only when
    that call throws, and returns otherwise. It makes no call exactly when
    the command is cut or copy and an editor is focused with text focus whose
    selection is present and empty while emptySelectionClipboard is off. *)
Theorem dispatch_suppressed_iff
    (h : Host) browserCommand (command : MultiCommand) host accessor w :
  exported im h browserCommand = Some command →
  let outcome := runImplementations (chainWith host browserCommand) accessor w in
  let called :=
    recorded w (forceCopyWithSyntaxHighlighting w) [ExecCommand browserCommand] in
  _implementations command = chainWith quiet browserCommand
  ∧ (outcome = (Normal (), w)
     ∨ (host (ExecCommand browserCommand) w = None ∧ outcome = (Normal (), called))
     ∨ (∃ error,
          host (ExecCommand browserCommand) w = Some error
          ∧ outcome = (Throw error, called)))
  ∧ (outcome = (Normal (), w)
     ↔ browserCommand ≠ paste
       ∧ ∃ editor selection,
           getFocusedCodeEditor accessor = Some editor
           ∧ hasTextFocus editor = true
           ∧ getSelection editor = Some selection
           ∧ isEmpty selection = true
           ∧ getOption editor emptySelectionClipboard = false).
Proof.
  intros Hexp outcome called. subst outcome called.
  destruct (exported_chain im h _ _ Hexp) as (Himpls & _ & _).
  split; [by rewrite Himpls|].
  rewrite runImplementations_chainWith.
  destruct (focusedEditorImplWith_cases host browserCommand accessor w)
    as [[Hno ->] | [[Hguard ->] | (_ & Hnot & ->)]].
  - destruct (host (ExecCommand browserCommand) w) as [error|] eqn:Hcall.
    + split; [right; right; eauto|]. split; [discriminate|].
      intros (_ & editor & selection & Hfocused & Htext & _).
      specialize (Hno editor Hfocused). congruence.
    + split; [right; left; eauto|]. split.
      * intros [= Heq]. by apply recorded_neq in Heq.
      * intros (_ & editor & selection & Hfocused & Htext & _).
        specialize (Hno editor Hfocused). congruence.
  - split; [by left|]. split; [intros _; exact Hguard | done].
  - destruct (host (ExecCommand browserCommand) w) as [error|] eqn:Hcall.
    + split; [right; right; eauto|]. split; [discriminate | done].
    + split; [right; left; eauto|]. split; [|done].
      intros [= Heq]. by apply recorded_neq in Heq.
Qed.

End HostThrows.

(** * Instances with a host call that throws *)

(** run on the word editor when document.execCommand('copy') throws: three
    calls are recorded and the flag is left on. *)
Example run_when_copy_throws :
  runWith (λ ev _, match ev with
                   | ExecCommand _ => Some (HostError "NotAllowedError")
                   | _ => None
                   end)
    {| getFocusedCodeEditor := None |} Sample.wordEditor Sample.idle
  = (Throw (HostError "NotAllowedError"),
     {| forceCopyWithSyntaxHighlighting := true;
        events := [SetForceCopyWithSyntaxHighlighting true;
                   EditorFocus Sample.wordEditor;
                   ExecCommand copy] |}).
Proof. reflexivity. Qed.

(** X2: on the desktop, copy with the word editor focused and a document
    whose execCommand throws: one call, ended by that exception. *)
Lemma dispatch_suppressed_iff_witness :
  let host : HostCalls Sample.Editor :=
    λ ev _, match ev with
            | ExecCommand _ => Some (HostError "NotAllowedError")
            | _ => None
            end in
  let command := {| options := copyOptions Sample.imports Sample.desktop;
                    _implementations := [(10000%Z, focusedEditorImpl copy);
                                         (0%Z, defaultImpl copy)] |} in
  let accessor := {| getFocusedCodeEditor := Some Sample.wordEditor |} in
  let outcome := runImplementations (chainWith host copy) accessor Sample.idle in
  let called := recorded Sample.idle false [ExecCommand copy] in
  _implementations command = chainWith quiet copy
  ∧ (outcome = (Normal (), Sample.idle)
     ∨ (host (ExecCommand copy) Sample.idle = None ∧ outcome = (Normal (), called))
     ∨ (∃ error,
          host (ExecCommand copy) Sample.idle = Some error
          ∧ outcome = (Throw error, called)))
  ∧ (outcome = (Normal (), Sample.idle)
     ↔ copy ≠ paste
       ∧ ∃ editor selection,
           getFocusedCodeEditor accessor = Some editor
           ∧ hasTextFocus editor = true
           ∧ getSelection editor = Some selection
           ∧ isEmpty selection = true
           ∧ getOption editor emptySelectionClipboard = false).
Proof.
  intros host command accessor outcome called.
  apply (dispatch_suppressed_iff Sample.imports Sample.desktop copy command host
           accessor Sample.idle).
  reflexivity.
Defined.
